(** * Response post-processing of the AI learning platform backend

    A shallow embedding of [backend/server.py]: the lexical simplifier
    [make_kid_friendly], the keyword classifier [is_content_safe_for_kids]
    and the request handler [send_chat_message] that chains them between the
    provider call and the database writes; then the two document helpers
    [prepare_for_mongo] and [parse_from_mongo] and the handler
    [create_status_check].

    Python strings are sequences of Unicode code points; they are modelled
    as lists of code points.  The three built-in string operations that the
    source uses ([str.replace], [in], [str.lower]) are modelled below:
    the first two by executable functions, [str.lower] as a parameter
    together with the two facts about it that the proofs need. *)

From Stdlib Require Import List NArith ZArith Bool Lia String Ascii DecimalString.
Import ListNotations.

(** ** Python strings *)

Definition str := list N.

(** A literal of the source whose characters are all ASCII. *)
Definition py (s : string) : str := map N_of_ascii (list_ascii_of_string s).

(** [s.startswith(p)] *)
Fixpoint startswith (p s : str) : bool :=
  match p, s with
  | [], _ => true
  | _ :: _, [] => false
  | a :: p', b :: s' => N.eqb a b && startswith p' s'
  end.

(** [k in s] for strings: [k] occurs in [s] as a contiguous run. *)
Fixpoint contains (k s : str) : bool :=
  startswith k s ||
  match s with
  | [] => false
  | _ :: s' => contains k s'
  end.

(** The relational reading of "is a substring of". *)
Definition Substring (k s : str) : Prop :=
  exists pre post, s = pre ++ k ++ post.

(** [s.replace(old, new)].  Occurrences are found from the left and do not
    overlap: after a match the scan resumes behind the matched run, which
    [skip] counts down.  With an empty [old], Python inserts [new] before
    every character and at the end. *)
Fixpoint replace_from (skip : nat) (old new s : str) : str :=
  match s with
  | [] => []
  | c :: rest =>
      match skip with
      | S n => replace_from n old new rest
      | O =>
          if startswith old s
          then new ++ replace_from (List.length old - 1) old new rest
          else c :: replace_from 0 old new rest
      end
  end.

Definition replace (old new s : str) : str :=
  match old with
  | [] => new ++ flat_map (fun c => c :: new) s
  | _ :: _ => replace_from 0 old new s
  end.

(** The specification of one replacement pass over a non-empty term:
    at each position, from the left, either the term starts here and is
    replaced as a whole, or one character is copied. *)
Inductive ReplaceAll (old new : str) : str -> str -> Prop :=
| RA_end : ReplaceAll old new [] []
| RA_hit : forall rest out,
    ReplaceAll old new rest out ->
    ReplaceAll old new (old ++ rest) (new ++ out)
| RA_copy : forall c s out,
    startswith old (c :: s) = false ->
    ReplaceAll old new s out ->
    ReplaceAll old new (c :: s) (c :: out).

(** ** [make_kid_friendly] *)

(** The dict literal of [make_kid_friendly]; a Python dict iterates in
    insertion order, so the literal is kept as the list of its items. *)
Definition replacements_literal : list (str * str) :=
  [ (py "artificial intelligence", py "AI (like a smart computer)");
    (py "algorithm", py "computer instructions");
    (py "machine learning", py "how computers learn");
    (py "neural network", py "computer brain");
    (py "processing", py "thinking");
    (py "generate", py "create");
    (py "sophisticated", py "smart");
    (py "complexity", py "how hard something is");
    (py "analyze", py "look at carefully");
    (py "implement", py "make it work") ].

(** The local variables of [make_kid_friendly]. *)
Record locals := {
  replacements : list (str * str);
  result : str
}.

(** One iteration of the loop: only [result] is rebound. *)
Definition loop_body (item : str * str) (st : locals) : locals :=
  let (complex_word, simple_word) := item in
  {| replacements := replacements st;
     result := replace complex_word simple_word (result st) |}.

Fixpoint for_items (items : list (str * str)) (st : locals) : locals :=
  match items with
  | [] => st
  | item :: rest => for_items rest (loop_body item st)
  end.

Definition make_kid_friendly_run (response : str) : locals :=
  let st := {| replacements := replacements_literal; result := response |} in
  for_items (replacements st) st.

Definition make_kid_friendly (response : str) : str :=
  result (make_kid_friendly_run response).

(** The simplifier as the specification words it: the phrase table is
    walked in order and every step's output is the next step's input. *)
Inductive SimplifySteps : list (str * str) -> str -> str -> Prop :=
| SS_done : forall t, SimplifySteps [] t t
| SS_step : forall complexTerm simpleTerm table t t' out,
    ReplaceAll complexTerm simpleTerm t t' ->
    SimplifySteps table t' out ->
    SimplifySteps ((complexTerm, simpleTerm) :: table) t out.

(** ** [is_content_safe_for_kids] *)

Definition unsafe_keywords : list str :=
  [ py "violence"; py "weapon"; py "kill"; py "death"; py "blood"; py "war";
    py "fight"; py "inappropriate"; py "adult"; py "mature"; py "scary";
    py "horror"; py "fear"; py "hate"; py "racism"; py "discrimination";
    py "bullying"; py "mean" ].

(** [any(keyword in text for keyword in unsafe_keywords)] *)
Definition any_keyword_in (text : str) : bool :=
  existsb (fun keyword => contains keyword text) unsafe_keywords.

(** ** [str.lower] on the code points the source's literals use *)

(** The lower-case mapping of an ASCII code point; every other code point is
    returned as it is. *)
Definition lower_cp (c : N) : N :=
  if (65 <=? c)%N && (c <=? 90)%N then (c + 32)%N else c.

(** Code points that [str.lower] maps one by one with [lower_cp]: ASCII, the
    section sign, the small letters of Latin-1 and the private use area. *)
Definition plain (c : N) : bool :=
  (c <? 128)%N || (c =? 167)%N
  || ((223 <=? c)%N && (c <=? 255)%N)
  || ((57344 <=? c)%N && (c <=? 63743)%N).

(** [str.lower] on strings of [plain] code points. *)
Definition lower_plain_model (s : str) : str := map lower_cp s.

(** ** Request and record models *)

(** A [datetime], represented by its ISO 8601 text. *)
Record datetime := { isoformat : str }.

Module ChatMessageCreate.
Record t := {
  session_id : str;
  message : str;
  model_provider : str;
  model_name : str
}.
End ChatMessageCreate.

Module ChatMessage.
Record t := {
  id : str;
  session_id : str;
  message : str;
  response : str;
  model_provider : str;
  model_name : str;
  timestamp : datetime;
  is_safe : bool
}.
End ChatMessage.

(** The values a record's [dict()] holds. *)
Inductive value :=
| VStr (s : str)
| VBool (b : bool)
| VDatetime (d : datetime).

Definition dict := list (str * value).

Definition ChatMessage_dict (m : ChatMessage.t) : dict :=
  [ (py "id", VStr (ChatMessage.id m));
    (py "session_id", VStr (ChatMessage.session_id m));
    (py "message", VStr (ChatMessage.message m));
    (py "response", VStr (ChatMessage.response m));
    (py "model_provider", VStr (ChatMessage.model_provider m));
    (py "model_name", VStr (ChatMessage.model_name m));
    (py "timestamp", VDatetime (ChatMessage.timestamp m));
    (py "is_safe", VBool (ChatMessage.is_safe m)) ].

Definition prepare_for_mongo (data : dict) : dict :=
  map (fun kv : str * value =>
         let (key, v) := kv in
         match v with
         | VDatetime d => (key, VStr (isoformat d))
         | _ => (key, v)
         end) data.

(** ** Exceptions, effects and the collaborators of the handler *)

(** [Error text] stands for any other exception of class [Exception], and
    [BaseError text] for an exception that derives from [BaseException]
    but not from [Exception], such as [asyncio.CancelledError] raised at an
    [await]; [text] is what [str(e)] gives. *)
Inductive exn :=
| HTTPException (status_code : Z) (detail : str)
| Error (text : str)
| BaseError (text : str).

(** [isinstance(e, Exception)] *)
Definition isinstance_Exception (e : exn) : bool :=
  match e with
  | HTTPException _ _ => true
  | Error _ => true
  | BaseError _ => false
  end.

Inductive outcome (A : Type) :=
| Ok (a : A)
| Raise (e : exn).
Arguments Ok {A} a.
Arguments Raise {A} e.

(** What the handler does to the outside world, in order. *)
Inductive event :=
| LlmSendMessage (api_key session_id system_message provider model text : str)
| InsertOne (collection : str) (document : dict)
| UpdateOneInc (collection : str) (id : str) (field : str) (amount : Z)
| LogError (text : str).

(** How the outside world answers during one request: the environment
    variable, the values the default factories of [ChatMessage] draw, the
    provider adapter and the two database writes. *)
Record Env := {
  EMERGENT_LLM_KEY : option str;
  uuid4 : str;
  utcnow : datetime;
  llm_send_message :
    forall (api_key session_id system_message provider model text : str),
      outcome str;
  insert_one : dict -> outcome unit;
  update_one : str -> outcome unit
}.

(** Computations that log their effects and may raise. *)
Definition M (A : Type) : Type := (list event * outcome A)%type.

Definition ret {A} (a : A) : M A := ([], Ok a).

Definition raise {A} (e : exn) : M A := ([], Raise e).

Definition bind {A B} (m : M A) (k : A -> M B) : M B :=
  match m with
  | (tr, Ok a) => let (tr', r) := k a in (tr ++ tr', r)
  | (tr, Raise e) => (tr, Raise e)
  end.

(** An effect: it is logged, and answers with [r]. *)
Definition call {A} (ev : event) (r : outcome A) : M A := ([ev], r).

(** [try: body except Exception as e: handler].  The clause catches the
    exceptions of class [Exception]; any other one passes through it. *)
Definition try_except {A} (body : M A) (handler : exn -> M A) : M A :=
  match body with
  | (tr, Raise e) =>
      if isinstance_Exception e
      then let (tr', r) := handler e in (tr ++ tr', r)
      else (tr, Raise e)
  | done => done
  end.

Notation "x <- m ;; k" := (bind m (fun x => k))
  (at level 61, m at next level, right associativity).

Fixpoint join_lines (ls : list string) : str :=
  match ls with
  | [] => []
  | [l] => py l
  | l :: rest => py l ++ 10%N :: join_lines rest
  end.

Definition system_message : str :=
  join_lines
    [ "You are a friendly AI teacher helping kids aged 8-12 learn about artificial intelligence and how computers work. ";
      "        ";
      "        Rules:";
      "        1. Use simple, fun language that kids can understand";
      "        2. Keep explanations short and engaging";
      "        3. Use examples from everyday life (toys, games, school)";
      "        4. Always be encouraging and positive";
      "        5. If asked about something not suitable for kids, gently redirect to learning topics";
      "        6. Make AI concepts sound exciting and magical but also explain them simply";
      "        7. Use emojis occasionally to make responses fun";
      "        ";
      "        Remember: You're teaching kids about AI, so make it fun and easy to understand!" ]%string.

(** The reply that replaces unsafe content.  Its last four code points are
    those of the source file: U+F8FF, U+00FC, U+00A7, U+00F1. *)
Definition FALLBACK : str :=
  py "Let's talk about something more fun! How about we explore how AI helps create cool games or helps robots move around? "
  ++ [63743; 252; 167; 241]%N.

Section Backend.

(** [str.lower], and [str(e)] of an [HTTPException]. *)
Variable lower : str -> str.
Variable HTTPException_str : Z -> str -> str.

Definition is_content_safe_for_kids (message response : str) : bool :=
  let combined_text := lower (message ++ py " " ++ response) in
  negb (any_keyword_in combined_text).

(** Lines 182-189 of [send_chat_message]: the reply is simplified, the
    simplified reply is classified, and an unsafe one is replaced. *)
Definition sanitize (message ai_response : str) : str * bool :=
  let kid_friendly_response := make_kid_friendly ai_response in
  let is_safe := is_content_safe_for_kids message kid_friendly_response in
  let kid_friendly_response :=
    if negb is_safe then FALLBACK else kid_friendly_response in
  (kid_friendly_response, is_safe).

Definition exn_str (e : exn) : str :=
  match e with
  | HTTPException status_code detail => HTTPException_str status_code detail
  | Error text => text
  | BaseError text => text
  end.

Definition send_chat_message (env : Env) (input : ChatMessageCreate.t)
  : M ChatMessage.t :=
  try_except
    (match EMERGENT_LLM_KEY env with
     | None | Some [] =>
         raise (HTTPException 500 (py "API key not configured"))
     | Some api_key =>
         ai_response <-
           call (LlmSendMessage api_key (ChatMessageCreate.session_id input)
                   system_message (ChatMessageCreate.model_provider input)
                   (ChatMessageCreate.model_name input)
                   (ChatMessageCreate.message input))
                (llm_send_message env api_key
                   (ChatMessageCreate.session_id input) system_message
                   (ChatMessageCreate.model_provider input)
                   (ChatMessageCreate.model_name input)
                   (ChatMessageCreate.message input)) ;;
         let (kid_friendly_response, is_safe) :=
           sanitize (ChatMessageCreate.message input) ai_response in
         let chat_message :=
           {| ChatMessage.id := uuid4 env;
              ChatMessage.session_id := ChatMessageCreate.session_id input;
              ChatMessage.message := ChatMessageCreate.message input;
              ChatMessage.response := kid_friendly_response;
              ChatMessage.model_provider :=
                ChatMessageCreate.model_provider input;
              ChatMessage.model_name := ChatMessageCreate.model_name input;
              ChatMessage.timestamp := utcnow env;
              ChatMessage.is_safe := is_safe |} in
         let message_data :=
           prepare_for_mongo (ChatMessage_dict chat_message) in
         _ <- call (InsertOne (py "chat_messages") message_data)
                   (insert_one env message_data) ;;
         _ <- call (UpdateOneInc (py "chat_sessions")
                      (ChatMessageCreate.session_id input)
                      (py "total_messages") 1)
                   (update_one env (ChatMessageCreate.session_id input)) ;;
         ret chat_message
     end)
    (fun e =>
       _ <- call (LogError (py "Chat error: " ++ exn_str e)) (Ok tt) ;;
       raise (HTTPException 500
                (py "Failed to process chat message: " ++ exn_str e))).

End Backend.

(** The number of provider calls in a trace. *)
Definition provider_calls (tr : list event) : nat :=
  List.length
    (filter (fun ev => match ev with LlmSendMessage _ _ _ _ _ _ => true
                               | _ => false end) tr).

(** The provider's answer to a request, when the key is configured. *)
Definition provider_reply (env : Env) (input : ChatMessageCreate.t)
  : option (outcome str) :=
  match EMERGENT_LLM_KEY env with
  | None | Some [] => None
  | Some api_key =>
      Some (llm_send_message env api_key (ChatMessageCreate.session_id input)
              system_message (ChatMessageCreate.model_provider input)
              (ChatMessageCreate.model_name input)
              (ChatMessageCreate.message input))
  end.

(** The record a request is answered with when nothing raises. *)
Definition record_of (lower : str -> str) (env : Env)
    (input : ChatMessageCreate.t) (ai_response : str) : ChatMessage.t :=
  {| ChatMessage.id := uuid4 env;
     ChatMessage.session_id := ChatMessageCreate.session_id input;
     ChatMessage.message := ChatMessageCreate.message input;
     ChatMessage.response :=
       fst (sanitize lower (ChatMessageCreate.message input) ai_response);
     ChatMessage.model_provider := ChatMessageCreate.model_provider input;
     ChatMessage.model_name := ChatMessageCreate.model_name input;
     ChatMessage.timestamp := utcnow env;
     ChatMessage.is_safe :=
       snd (sanitize lower (ChatMessageCreate.message input) ai_response) |}.

Definition is_http_500 {A} (r : outcome A) : Prop :=
  exists detail, r = Raise (HTTPException 500 detail).

(** The provider call of a request made with [api_key]. *)
Definition provider_call (api_key : str) (input : ChatMessageCreate.t)
  : event :=
  LlmSendMessage api_key (ChatMessageCreate.session_id input) system_message
    (ChatMessageCreate.model_provider input)
    (ChatMessageCreate.model_name input) (ChatMessageCreate.message input).

(** A request that fails with [e] after the effects [tr]: the [except]
    clause logs the error and raises the 500. *)
Definition failed_after (HTTPException_str : Z -> str -> str)
    (tr : list event) (e : exn) : M ChatMessage.t :=
  (tr ++ [LogError (py "Chat error: " ++ exn_str HTTPException_str e)],
   Raise (HTTPException 500
            (py "Failed to process chat message: "
             ++ exn_str HTTPException_str e))).

(** A request in which [e] is raised after the effects [tr]: an exception
    of class [Exception] is caught, logged and answered with the 500, and
    any other one leaves the handler as it is, with nothing logged. *)
Definition raised_after (HTTPException_str : Z -> str -> str)
    (tr : list event) (e : exn) : M ChatMessage.t :=
  if isinstance_Exception e
  then failed_after HTTPException_str tr e
  else (tr, Raise e).

(** The exception that is raised inside the [try] block of a request, if
    one is: the inner 500 for a missing key, or what the provider call, the
    insertion or the counter update raised. *)
Definition raised_in_try (lower : str -> str) (env : Env)
    (input : ChatMessageCreate.t) : option exn :=
  match provider_reply env input with
  | None => Some (HTTPException 500 (py "API key not configured"))
  | Some (Raise e) => Some e
  | Some (Ok ai_response) =>
      match insert_one env
              (prepare_for_mongo
                 (ChatMessage_dict (record_of lower env input ai_response)))
      with
      | Raise e => Some e
      | Ok _ =>
          match update_one env (ChatMessageCreate.session_id input) with
          | Raise e => Some e
          | Ok _ => None
          end
      end
  end.

(** No phrase of the table occurs in [t]. *)
Definition no_complex_term (t : str) : bool :=
  forallb (fun item : str * str => negb (contains (fst item) t))
    replacements_literal.

(** The exception named with the idempotence of the simplifier: some step
    of the pass outputs a text that contains a phrase listed earlier in the
    table than the step's own.  [earlier] holds the phrases of the steps
    already made. *)
Fixpoint earlier_term_in_output (earlier : list str)
    (items : list (str * str)) (t : str) : bool :=
  match items with
  | [] => false
  | (complex_word, simple_word) :: rest =>
      let t' := replace complex_word simple_word t in
      existsb (fun e => contains e t') earlier
      || earlier_term_in_output (earlier ++ [complex_word]) rest t'
  end.

Definition output_contains_earlier_term (t : str) : bool :=
  earlier_term_in_output [] replacements_literal t.

(** The suffixes of a text, the text itself and the empty one included. *)
Fixpoint tails (s : str) : list str :=
  match s with
  | [] => [[]]
  | _ :: s' => s :: tails s'
  end.

(** [a] and [b] begin alike: one is a prefix of the other. *)
Definition begin_alike (a b : str) : bool := startswith a b || startswith b a.

(** A sufficient condition for a replacement never to rebuild its own
    phrase: no proper non-empty suffix of [old] begins like [new], and no
    non-empty suffix of [new] begins like [old]. *)
Definition never_rebuilt (old new : str) : bool :=
  forallb (fun v => match v with
                    | [] => true
                    | _ :: _ => negb (begin_alike v new)
                    end) (tails (tl old))
  && forallb (fun y => match y with
                       | [] => true
                       | _ :: _ => negb (begin_alike old y)
                       end) (tails new).

(** ** Concrete runs *)

(** [str(e)] of an [HTTPException] as Starlette prints it. *)
Definition starlette_str (status_code : Z) (detail : str) : str :=
  py (NilZero.string_of_int (Z.to_int status_code)) ++ py ": " ++ detail.

Definition request_ai : ChatMessageCreate.t :=
  {| ChatMessageCreate.session_id := py "session-1";
     ChatMessageCreate.message := py "What is AI?";
     ChatMessageCreate.model_provider := py "openai";
     ChatMessageCreate.model_name := py "gpt-5" |}.

Definition reply_ai : str :=
  py "AI is a kind of processing that helps computers".

(** A world where the key is set, the provider answers [reply] and the
    database accepts both writes. *)
Definition env_up (reply : str) : Env :=
  {| EMERGENT_LLM_KEY := Some (py "sk-test");
     uuid4 := py "0b5a4d1e-7c1f-4c59-9d3a-2f6e8a1b0c77";
     utcnow := {| isoformat := py "2025-01-01T00:00:00+00:00" |};
     llm_send_message := fun _ _ _ _ _ _ => Ok reply;
     insert_one := fun _ => Ok tt;
     update_one := fun _ => Ok tt |}.

(** A world where the provider answers but the database refuses the
    insertion. *)
Definition env_db_down : Env :=
  {| EMERGENT_LLM_KEY := Some (py "sk-test");
     uuid4 := py "0b5a4d1e-7c1f-4c59-9d3a-2f6e8a1b0c77";
     utcnow := {| isoformat := py "2025-01-01T00:00:00+00:00" |};
     llm_send_message := fun _ _ _ _ _ _ => Ok reply_ai;
     insert_one := fun _ => Raise (Error (py "connection refused"));
     update_one := fun _ => Ok tt |}.

(** ** [parse_from_mongo] and [create_status_check] *)

Fixpoint str_eqb (a b : str) : bool :=
  match a, b with
  | [], [] => true
  | x :: a', y :: b' => N.eqb x y && str_eqb a' b'
  | _, _ => false
  end.

(** [key in ['timestamp', 'created_at']] *)
Definition is_time_key (key : str) : bool :=
  existsb (str_eqb key) [py "timestamp"; py "created_at"].

Definition isinstance_str (v : value) : bool :=
  match v with
  | VStr _ => true
  | _ => false
  end.

Section Parsing.

(** [datetime.fromisoformat]; [None] when it raises. *)
Variable fromisoformat : str -> option datetime.

(** One iteration of the loop of [parse_from_mongo]: a text under one of
    the two keys is replaced by the datetime it parses to, and is left in
    place when parsing raises. *)
Definition parse_item (kv : str * value) : str * value :=
  let (key, v) := kv in
  if is_time_key key && isinstance_str v then
    match v with
    | VStr s =>
        match fromisoformat s with
        | Some d => (key, VDatetime d)
        | None => (key, v)
        end
    | _ => (key, v)
    end
  else (key, v).

Definition parse_from_mongo (item : dict) : dict := map parse_item item.

(** An entry that survives being stored and read back: a datetime sits
    under one of the two keys and is the one its ISO text parses to, and a
    text under one of the two keys does not parse. *)
Definition reads_back (kv : str * value) : Prop :=
  match snd kv with
  | VDatetime d =>
      is_time_key (fst kv) = true /\ fromisoformat (isoformat d) = Some d
  | VStr s => is_time_key (fst kv) = true -> fromisoformat s = None
  | VBool _ => True
  end.

End Parsing.

(** [d[key]] on the list of items: the first item with that key. *)
Fixpoint dict_get (key : str) (d : dict) : option value :=
  match d with
  | [] => None
  | (k, v) :: rest => if str_eqb key k then Some v else dict_get key rest
  end.

Module StatusCheckCreate.
Record t := {
  client_name : str
}.
End StatusCheckCreate.

Module StatusCheck.
Record t := {
  id : str;
  client_name : str;
  timestamp : datetime
}.
End StatusCheck.

Definition StatusCheck_dict (s : StatusCheck.t) : dict :=
  [ (py "id", VStr (StatusCheck.id s));
    (py "client_name", VStr (StatusCheck.client_name s));
    (py "timestamp", VDatetime (StatusCheck.timestamp s)) ].

(** [create_status_check]: the object is built from the request and the
    default factories, its prepared [dict()] is inserted, and the object is
    returned; nothing catches what the insertion raises. *)
Definition create_status_check (env : Env) (input : StatusCheckCreate.t)
  : M StatusCheck.t :=
  let status_obj :=
    {| StatusCheck.id := uuid4 env;
       StatusCheck.client_name := StatusCheckCreate.client_name input;
       StatusCheck.timestamp := utcnow env |} in
  let status_data := prepare_for_mongo (StatusCheck_dict status_obj) in
  _ <- call (InsertOne (py "status_checks") status_data)
            (insert_one env status_data) ;;
  ret status_obj.

(** ** Separators *)

(** [c] occurs in no phrase of the table. *)
Definition in_no_phrase (c : N) : bool :=
  forallb (fun item : str * str => negb (existsb (N.eqb c) (fst item)))
    replacements_literal.

(** The events of a trace that write to the database. *)
Definition is_insert (ev : event) : bool :=
  match ev with
  | InsertOne _ _ => true
  | _ => false
  end.

Definition is_update (ev : event) : bool :=
  match ev with
  | UpdateOneInc _ _ _ _ => true
  | _ => false
  end.

Definition is_log (ev : event) : bool :=
  match ev with
  | LogError _ => true
  | _ => false
  end.

(** A stand-in for [datetime.fromisoformat] in concrete runs: it accepts
    the texts that start with a digit. *)
Definition fromisoformat_digits (s : str) : option datetime :=
  match s with
  | c :: _ =>
      if (48 <=? c)%N && (c <=? 57)%N
      then Some {| isoformat := s |} else None
  | [] => None
  end.

(** A world where the insertion succeeds and the counter update raises. *)
Definition env_counter_down : Env :=
  {| EMERGENT_LLM_KEY := Some (py "sk-test");
     uuid4 := py "0b5a4d1e-7c1f-4c59-9d3a-2f6e8a1b0c77";
     utcnow := {| isoformat := py "2025-01-01T00:00:00+00:00" |};
     llm_send_message := fun _ _ _ _ _ _ => Ok reply_ai;
     insert_one := fun _ => Ok tt;
     update_one := fun _ => Raise (Error (py "connection refused")) |}.

(** A world where the request is cancelled while the provider call is
    awaited. *)
Definition env_cancelled : Env :=
  {| EMERGENT_LLM_KEY := Some (py "sk-test");
     uuid4 := py "0b5a4d1e-7c1f-4c59-9d3a-2f6e8a1b0c77";
     utcnow := {| isoformat := py "2025-01-01T00:00:00+00:00" |};
     llm_send_message := fun _ _ _ _ _ _ => Raise (BaseError (py ""));
     insert_one := fun _ => Ok tt;
     update_one := fun _ => Ok tt |}.

(** A world where the key is not configured. *)
Definition env_no_key : Env :=
  {| EMERGENT_LLM_KEY := None;
     uuid4 := py "0b5a4d1e-7c1f-4c59-9d3a-2f6e8a1b0c77";
     utcnow := {| isoformat := py "2025-01-01T00:00:00+00:00" |};
     llm_send_message := fun _ _ _ _ _ _ => Ok reply_ai;
     insert_one := fun _ => Ok tt;
     update_one := fun _ => Ok tt |}.

Definition request_status : StatusCheckCreate.t :=
  {| StatusCheckCreate.client_name := py "classroom-7" |}.

(** * Properties *)

(** ** The string operations *)

Lemma startswith_app (p rest : str) : startswith p (p ++ rest) = true.
Proof.
  induction p as [|a p IH]; simpl.
  - reflexivity.
  - now rewrite N.eqb_refl, IH.
Qed.

Lemma startswith_true (p s : str) :
  startswith p s = true -> exists rest, s = p ++ rest.
Proof.
  revert s; induction p as [|a p IH]; intros s H.
  - now exists s.
  - destruct s as [|b s]; simpl in H; [discriminate|].
    apply andb_true_iff in H as [Hab Hps].
    apply N.eqb_eq in Hab; subst b.
    destruct (IH s Hps) as [rest ->].
    now exists rest.
Qed.

Lemma startswith_contains (k s : str) :
  startswith k s = true -> contains k s = true.
Proof. intros H; destruct s; simpl in *; now rewrite H. Qed.

Lemma contains_Substring (k s : str) :
  contains k s = true <-> Substring k s.
Proof.
  split.
  - induction s as [|c s IH]; simpl; intros H.
    + rewrite orb_false_r in H.
      apply startswith_true in H as [rest ->].
      now exists [], rest.
    + apply orb_true_iff in H as [H|H].
      * apply startswith_true in H as [rest ->].
        now exists [], rest.
      * destruct (IH H) as (pre & post & ->).
        now exists (c :: pre), post.
  - intros (pre & post & ->).
    induction pre as [|c pre IH].
    + change ([] ++ k ++ post) with (k ++ post).
      apply startswith_contains, startswith_app.
    + simpl in *; now rewrite IH, orb_true_r.
Qed.

Lemma contains_false_cons (k : str) (c : N) (s : str) :
  contains k (c :: s) = false ->
  startswith k (c :: s) = false /\ contains k s = false.
Proof.
  simpl; intros H; now apply orb_false_iff in H.
Qed.

Lemma Substring_app_r (k a b : str) : Substring k b -> Substring k (a ++ b).
Proof.
  intros (pre & post & ->).
  exists (a ++ pre), post; now rewrite app_assoc.
Qed.

Lemma Substring_app_l (k a b : str) : Substring k a -> Substring k (a ++ b).
Proof.
  intros (pre & post & ->).
  exists pre, (post ++ b); now rewrite <- !app_assoc.
Qed.

Lemma any_keyword_in_true (text : str) :
  any_keyword_in text = true <->
  exists k, In k unsafe_keywords /\ Substring k text.
Proof.
  unfold any_keyword_in; rewrite existsb_exists.
  split; intros (k & Hin & H); exists k; split; trivial;
    now apply contains_Substring.
Qed.

(** ** One replacement pass *)

Example replace_does_not_overlap :
  replace (py "aa") (py "b") (py "aaa") = py "ba".
Proof. reflexivity. Qed.

Example replace_empty_term :
  replace (py "") (py "-") (py "abc") = py "-a-b-c-".
Proof. reflexivity. Qed.

Lemma replace_from_skip (n : nat) (old new s : str) :
  replace_from n old new s = replace_from 0 old new (skipn n s).
Proof.
  revert s; induction n as [|n IH]; intros s.
  - reflexivity.
  - destruct s as [|c s]; simpl.
    + reflexivity.
    + apply IH.
Qed.

Lemma replace_hit (old new rest : str) :
  old <> [] -> replace old new (old ++ rest) = new ++ replace old new rest.
Proof.
  destruct old as [|a old]; [congruence|]; intros _.
  unfold replace.
  change ((a :: old) ++ rest) with (a :: (old ++ rest)).
  cbn [replace_from].
  change (a :: old ++ rest) with ((a :: old) ++ rest).
  rewrite startswith_app.
  f_equal.
  rewrite replace_from_skip.
  replace (List.length (a :: old) - 1) with (List.length old)
    by (cbn [List.length]; lia).
  now rewrite skipn_app, skipn_all, Nat.sub_diag.
Qed.

Lemma replace_copy (old new : str) (c : N) (s : str) :
  startswith old (c :: s) = false ->
  replace old new (c :: s) = c :: replace old new s.
Proof.
  destruct old as [|a old]; [discriminate|]; intros H.
  unfold replace; cbn [replace_from]; now rewrite H.
Qed.

Lemma replace_nil (old new : str) : old <> [] -> replace old new [] = [].
Proof. destruct old; [congruence|reflexivity]. Qed.

Lemma replace_ReplaceAll (old new s : str) :
  old <> [] -> ReplaceAll old new s (replace old new s).
Proof.
  intros Hold.
  remember (List.length s) as n eqn:Hn.
  revert s Hn; induction n as [n IH] using lt_wf_ind; intros s ->.
  destruct s as [|c s].
  - rewrite replace_nil by assumption; constructor.
  - destruct (startswith old (c :: s)) eqn:E.
    + apply startswith_true in E as [rest E]; rewrite E.
      rewrite replace_hit by assumption.
      constructor.
      apply (IH (List.length rest)); trivial.
      apply (f_equal (@List.length N)) in E.
      rewrite length_app in E; cbn [List.length] in E.
      destruct old; [congruence|cbn [List.length] in *; lia].
    + rewrite replace_copy by assumption.
      constructor; trivial.
      apply (IH (List.length s)); trivial.
      cbn [List.length]; lia.
Qed.

Lemma ReplaceAll_functional (old new s o1 o2 : str) :
  old <> [] ->
  ReplaceAll old new s o1 -> ReplaceAll old new s o2 -> o1 = o2.
Proof.
  intros Hold H1; revert o2.
  induction H1 as [|rest out H1 IH|c s out Hc H1 IH]; intros o2 H2.
  - inversion H2 as [|rest' out' H' E|]; subst; trivial.
    destruct old; [congruence|discriminate].
  - inversion H2 as [E|rest' out' H' E|c s out' Hc H' E]; subst.
    + destruct old; [congruence|discriminate].
    + apply app_inv_head in E; subst rest'.
      f_equal; now apply IH.
    + rewrite E, startswith_app in Hc; discriminate.
  - inversion H2 as [|rest' out' H' E|c' s' out' Hc' H' E]; subst.
    + rewrite <- E, startswith_app in Hc; discriminate.
    + f_equal; now apply IH.
Qed.

Lemma replace_absent (old new s : str) :
  contains old s = false -> replace old new s = s.
Proof.
  induction s as [|c s IH]; intros H.
  - destruct old; [discriminate|reflexivity].
  - apply contains_false_cons in H as [Hs Hc].
    rewrite replace_copy by assumption.
    now rewrite IH.
Qed.

(** ** The loop of [make_kid_friendly] *)

Lemma for_items_fold (items : list (str * str)) (st : locals) :
  result (for_items items st) =
  fold_left (fun acc item => replace (fst item) (snd item) acc)
    items (result st).
Proof.
  revert st; induction items as [|[c s] items IH]; intros st; simpl.
  - reflexivity.
  - now rewrite IH.
Qed.

Lemma for_items_steps (items : list (str * str)) (st : locals) :
  Forall (fun item => fst item <> []) items ->
  SimplifySteps items (result st) (result (for_items items st)).
Proof.
  intros Hne; revert st.
  induction Hne as [|[c s] items Hc _ IH]; intros st; simpl.
  - constructor.
  - econstructor.
    + apply replace_ReplaceAll, Hc.
    + apply (IH {| replacements := replacements st;
                   result := replace c s (result st) |}).
Qed.

Lemma SimplifySteps_functional (items : list (str * str)) (t o1 o2 : str) :
  Forall (fun item => fst item <> []) items ->
  SimplifySteps items t o1 -> SimplifySteps items t o2 -> o1 = o2.
Proof.
  intros Hne H1; revert o2.
  induction H1 as [t|c s table t t' out Hr H1 IH]; intros o2 H2.
  - now inversion H2.
  - inversion H2 as [|c' s' table' t0 t'' out' Hr' H2']; subst.
    inversion Hne as [|x l Hc Hne']; subst.
    assert (t' = t'') by (eapply ReplaceAll_functional; eauto).
    subst t''; now apply IH.
Qed.

Lemma replacements_literal_nonempty :
  Forall (fun item : str * str => fst item <> []) replacements_literal.
Proof. repeat constructor; discriminate. Qed.

Lemma for_items_absent (items : list (str * str)) (st : locals) :
  (forall c s, In (c, s) items -> contains c (result st) = false) ->
  result (for_items items st) = result st.
Proof.
  revert st; induction items as [|[c s] items IH]; intros st H; simpl.
  - reflexivity.
  - assert (E : replace c s (result st) = result st)
      by (apply replace_absent, (H c s); now left).
    rewrite IH; simpl; trivial.
    intros c' s' Hin; rewrite E; apply (H c' s'); now right.
Qed.

(** ** The simplifier *)

(** Matching is by code point, so it is case-sensitive, and it ignores word
    boundaries. *)
Example make_kid_friendly_case_sensitive :
  make_kid_friendly (py "Processing and preprocessing")
  = py "Processing and prethinking".
Proof. vm_compute; reflexivity. Qed.

(** A phrase that an earlier step leaves next to its context is replaced by
    a later step of the same pass. *)
Example make_kid_friendly_cascades :
  make_kid_friendly (py "processingenerate") = py "thinkincreate".
Proof. vm_compute; reflexivity. Qed.

(** C4: [make_kid_friendly t] is the result of walking the phrase table in
    its listed order, each step replacing every occurrence of the phrase,
    found from the left without overlap and compared code point by code
    point, in the text the step before it produced; that result exists for
    every [t] and is the only one. *)
Theorem make_kid_friendly_folds_table (t : str) :
  SimplifySteps replacements_literal t (make_kid_friendly t) /\
  (forall out,
      SimplifySteps replacements_literal t out -> out = make_kid_friendly t) /\
  make_kid_friendly t =
    fold_left (fun acc item => replace (fst item) (snd item) acc)
      replacements_literal t.
Proof.
  assert (H : SimplifySteps replacements_literal t (make_kid_friendly t)).
  { apply (for_items_steps replacements_literal
             {| replacements := replacements_literal; result := t |}).
    apply replacements_literal_nonempty. }
  split; [exact H|split].
  - intros out Hout.
    eapply SimplifySteps_functional; eauto using replacements_literal_nonempty.
  - unfold make_kid_friendly, make_kid_friendly_run.
    now rewrite for_items_fold.
Qed.

Lemma no_complex_term_In (t : str) :
  no_complex_term t = true ->
  forall c s, In (c, s) replacements_literal -> contains c t = false.
Proof.
  unfold no_complex_term; intros H c s Hin.
  rewrite forallb_forall in H.
  apply H in Hin; simpl in Hin.
  now apply negb_true_iff.
Qed.

(** *** A replacement does not rebuild its own phrase *)

Lemma startswith_app_cases (v a z : str) :
  startswith v (a ++ z) = true -> begin_alike v a = true.
Proof.
  unfold begin_alike.
  revert a; induction v as [|c v IH]; intros a H.
  - reflexivity.
  - destruct a as [|d a].
    + apply orb_true_r.
    + cbn [app startswith] in H |- *.
      apply andb_true_iff in H as [Hcd H].
      rewrite (N.eqb_sym d c), Hcd; cbn [andb].
      now apply IH.
Qed.

Lemma tails_self (s : str) : In s (tails s).
Proof. destruct s; now left. Qed.

Lemma tails_tail (c : N) (v l : str) :
  In (c :: v) (tails l) -> In v (tails l).
Proof.
  induction l as [|d l IH]; cbn [tails In].
  - intros [H|[]]; discriminate.
  - intros [H|H].
    + injection H as _ ->; right; apply tails_self.
    + right; now apply IH.
Qed.

Lemma contains_app_cases (k a z : str) :
  contains k (a ++ z) = true ->
  (exists c y, In (c :: y) (tails a) /\ begin_alike k (c :: y) = true)
  \/ contains k z = true.
Proof.
  induction a as [|c a IH]; intros H.
  - now right.
  - change ((c :: a) ++ z) with (c :: (a ++ z)) in H.
    cbn [contains] in H; apply orb_true_iff in H as [H|H].
    + left; exists c, a; split; [now left|].
      change (c :: a ++ z) with ((c :: a) ++ z) in H.
      now apply startswith_app_cases in H.
    + destruct (IH H) as [(c' & y & Hy & Hk)|Hz]; [left|now right].
      exists c', y; split; [now right|exact Hk].
Qed.

Lemma replace_never_rebuilds (old new s : str) :
  old <> [] -> never_rebuilt old new = true ->
  contains old (replace old new s) = false.
Proof.
  intros Hold Hnr.
  apply andb_true_iff in Hnr as [Hsuf Hnew].
  rewrite forallb_forall in Hsuf, Hnew.
  destruct old as [|x0 old']; [congruence|]; cbn [tl] in Hsuf.
  set (old := x0 :: old') in *.
  enough (H : (forall v, In v (tails old') ->
                         startswith v (replace old new s) = true ->
                         startswith v s = true)
              /\ contains old (replace old new s) = false)
    by apply H.
  remember (List.length s) as n eqn:Hn.
  revert s Hn; induction n as [n IH] using lt_wf_ind; intros s ->.
  destruct (startswith old s) eqn:E.
  - apply startswith_true in E as [rest ->].
    rewrite replace_hit by discriminate.
    destruct (IH (List.length rest)) with (s := rest) as [_ Hrest]; trivial.
    { rewrite length_app; unfold old; cbn [List.length]; lia. }
    split.
    + intros v Hv H.
      destruct v as [|c v]; [reflexivity|].
      apply startswith_app_cases in H.
      specialize (Hsuf _ Hv); cbn in Hsuf.
      apply negb_true_iff in Hsuf; congruence.
    + destruct (contains old (new ++ replace old new rest)) eqn:C; trivial.
      apply contains_app_cases in C as [(c & y & Hy & Hk)|C];
        [|congruence].
      specialize (Hnew _ Hy); cbn in Hnew.
      apply negb_true_iff in Hnew; congruence.
  - destruct s as [|c s].
    + rewrite replace_nil by discriminate.
      split; [trivial|reflexivity].
    + rewrite replace_copy by assumption.
      destruct (IH (List.length s)) with (s := s) as [Hs Hrest]; trivial.
      { cbn [List.length]; lia. }
      split.
      * intros v Hv H.
        destruct v as [|c' v]; [reflexivity|].
        cbn [startswith] in H |- *.
        apply andb_true_iff in H as [Hc H].
        rewrite Hc; cbn [andb].
        apply Hs; trivial.
        now apply tails_tail in Hv.
      * cbn [contains]; rewrite Hrest, orb_false_r.
        destruct (startswith old (c :: replace old new s)) eqn:C; trivial.
        unfold old in C, E; cbn [startswith] in C, E.
        apply andb_true_iff in C as [Hc C].
        rewrite Hc in E; cbn [andb] in E.
        apply Hs in C; [congruence|apply tails_self].
Qed.

(** *** What the last step leaves *)

Lemma existsb_false_In {A} (f : A -> bool) (l : list A) :
  existsb f l = false -> forall x, In x l -> f x = false.
Proof.
  intros H x Hx.
  destruct (f x) eqn:E; trivial.
  assert (T : existsb f l = true) by (apply existsb_exists; now exists x).
  congruence.
Qed.

Lemma earlier_terms_absent_at_the_end (init : list (str * str))
    (last : str * str) (earlier : list str) (t : str) :
  earlier_term_in_output earlier (init ++ [last]) t = false ->
  forall e,
    In e (earlier ++ map fst init) ->
    contains e
      (replace (fst last) (snd last)
         (fold_left (fun acc item => replace (fst item) (snd item) acc)
            init t)) = false.
Proof.
  revert earlier t; induction init as [|[c s] init IH]; intros earlier t H e.
  - destruct last as [c s]; cbn in H |- *.
    rewrite orb_false_r in H; rewrite app_nil_r.
    intros He; exact (existsb_false_In _ _ H e He).
  - cbn [app earlier_term_in_output] in H.
    apply orb_false_iff in H as [_ H].
    cbn [map fold_left fst snd].
    intros He; apply (IH _ _ H).
    now rewrite <- app_assoc.
Qed.

(** C5: applying the simplifier twice gives what applying it once gives,
    except where some step of the pass outputs a text that contains a
    phrase listed earlier in the table. *)
Theorem make_kid_friendly_twice_unless_cascade (t : str) :
  output_contains_earlier_term t = false ->
  make_kid_friendly (make_kid_friendly t) = make_kid_friendly t.
Proof.
  intros H.
  assert (Hfree : forall c s, In (c, s) replacements_literal ->
                              contains c (make_kid_friendly t) = false).
  { unfold output_contains_earlier_term in H.
    unfold make_kid_friendly, make_kid_friendly_run; cbn [replacements].
    rewrite for_items_fold; cbn [result].
    change replacements_literal
      with (removelast replacements_literal
            ++ [(py "implement", py "make it work")]) in H |- *.
    rewrite fold_left_app; cbn [fold_left fst snd].
    intros c s Hin; apply in_app_or in Hin as [Hin|[Hin|[]]].
    - apply (earlier_terms_absent_at_the_end _ _ [] t H).
      cbn [app]; apply in_map_iff; now exists (c, s).
    - injection Hin as <- <-.
      apply replace_never_rebuilds; [discriminate|vm_compute; reflexivity]. }
  unfold make_kid_friendly at 1; unfold make_kid_friendly_run.
  cbn [replacements].
  now rewrite for_items_absent.
Qed.

Lemma make_kid_friendly_twice_unless_cascade_witness :
  output_contains_earlier_term reply_ai = false /\
  make_kid_friendly (make_kid_friendly reply_ai) = make_kid_friendly reply_ai.
Proof.
  split.
  - vm_compute; reflexivity.
  - apply (make_kid_friendly_twice_unless_cascade reply_ai).
    vm_compute; reflexivity.
Defined.

(** The exception occurs: "smart" joins the text behind it into the first
    phrase of the table, which only a second pass replaces. *)
Example make_kid_friendly_cascade_needs_second_pass :
  output_contains_earlier_term (py "sophisticatedificial intelligence")
  = true /\
  make_kid_friendly (py "sophisticatedificial intelligence")
  = py "smartificial intelligence" /\
  make_kid_friendly
    (make_kid_friendly (py "sophisticatedificial intelligence"))
  = py "smAI (like a smart computer)".
Proof. repeat split; vm_compute; reflexivity. Qed.

Section Properties.

Variable lower : str -> str.
Variable HTTPException_str : Z -> str -> str.

(** [str.lower] maps every code point by itself, except the capital sigma,
    whose image depends on the cased letters and case-ignorable code points
    around it.  A space is neither, so nothing is seen across it, and
    lowering commutes with joining two strings by a space. *)
Hypothesis lower_space :
  forall u s, lower (u ++ py " " ++ s) = lower u ++ py " " ++ lower s.

(** No [plain] code point is the capital sigma, and [lower_cp] is the
    lower-case mapping of each of them. *)
Hypothesis lower_plain :
  forall s, forallb plain s = true -> lower s = lower_plain_model s.

Local Abbreviation classify := (is_content_safe_for_kids lower).
Local Abbreviation handler := (send_chat_message lower HTTPException_str).

(** ** The handler, case by case *)

Lemma sanitize_eq (u raw : str) :
  sanitize lower u raw =
  (if classify u (make_kid_friendly raw)
   then make_kid_friendly raw else FALLBACK,
   classify u (make_kid_friendly raw)).
Proof.
  unfold sanitize.
  now destruct (classify u (make_kid_friendly raw)).
Qed.

Lemma send_chat_message_cases (env : Env) (input : ChatMessageCreate.t) :
  match provider_reply env input with
  | None =>
      handler env input =
      failed_after HTTPException_str []
        (HTTPException 500 (py "API key not configured"))
  | Some reply =>
      exists api_key,
        EMERGENT_LLM_KEY env = Some api_key /\
        match reply with
        | Raise e =>
            handler env input =
            raised_after HTTPException_str [provider_call api_key input] e
        | Ok ai_response =>
            let chat_message := record_of lower env input ai_response in
            let message_data :=
              prepare_for_mongo (ChatMessage_dict chat_message) in
            let written :=
              [provider_call api_key input;
               InsertOne (py "chat_messages") message_data] in
            let counted :=
              written ++
              [UpdateOneInc (py "chat_sessions")
                 (ChatMessageCreate.session_id input)
                 (py "total_messages") 1] in
            match insert_one env message_data with
            | Raise e =>
                handler env input = raised_after HTTPException_str written e
            | Ok _ =>
                match update_one env (ChatMessageCreate.session_id input) with
                | Raise e =>
                    handler env input =
                    raised_after HTTPException_str counted e
                | Ok _ => handler env input = (counted, Ok chat_message)
                end
            end
        end
  end.
Proof.
  unfold provider_reply, send_chat_message.
  destruct (EMERGENT_LLM_KEY env) as [[|c key]|]; try reflexivity.
  exists (c :: key); split; [reflexivity|].
  fold (provider_call (c :: key) input).
  destruct (llm_send_message env (c :: key) _ _ _ _ _) as [ai_response|e];
    [|destruct e; reflexivity].
  cbn [call bind].
  rewrite (surjective_pairing
             (sanitize lower (ChatMessageCreate.message input) ai_response)).
  fold (record_of lower env input ai_response).
  cbv zeta.
  destruct (insert_one env _) as [[]|e]; [|destruct e; reflexivity].
  destruct (update_one env _) as [[]|e]; [reflexivity|destruct e; reflexivity].
Qed.

Lemma classify_true_iff (u r : str) :
  classify u r = true <->
  ~ exists k, In k unsafe_keywords /\ Substring k (lower (u ++ py " " ++ r)).
Proof.
  unfold is_content_safe_for_kids.
  rewrite negb_true_iff, <- any_keyword_in_true.
  now destruct (any_keyword_in _).
Qed.

Lemma classify_false_iff (u r : str) :
  classify u r = false <->
  exists k, In k unsafe_keywords /\ Substring k (lower (u ++ py " " ++ r)).
Proof.
  unfold is_content_safe_for_kids.
  now rewrite negb_false_iff, any_keyword_in_true.
Qed.

(** Evaluates the classifier on a closed string of [plain] code points. *)
Ltac classify_plain :=
  unfold is_content_safe_for_kids;
  rewrite lower_plain by (vm_compute; reflexivity);
  vm_compute; reflexivity.

(** ** The classifier *)

(** C1: [is_content_safe_for_kids u r] is false exactly when one of the
    eighteen keywords is a substring of the lower-cased [u + " " + r], and
    true otherwise. *)
Theorem is_content_safe_for_kids_iff (u r : str) :
  List.length unsafe_keywords = 18 /\
  (classify u r = false <->
   exists k, In k unsafe_keywords /\
             Substring k (lower (u ++ py " " ++ r))) /\
  (classify u r = true <->
   ~ exists k, In k unsafe_keywords /\
               Substring k (lower (u ++ py " " ++ r))).
Proof.
  split; [reflexivity|].
  split; [apply classify_false_iff|apply classify_true_iff].
Qed.

Lemma raised_after_not_Ok (tr tr' : list event) (e : exn)
    (m : ChatMessage.t) :
  raised_after HTTPException_str tr e <> (tr', Ok m).
Proof. unfold raised_after; destruct e; discriminate. Qed.

Lemma send_chat_message_ok (env : Env) (input : ChatMessageCreate.t)
    (raw : str) (tr : list event) (m : ChatMessage.t) :
  provider_reply env input = Some (Ok raw) ->
  handler env input = (tr, Ok m) ->
  m = record_of lower env input raw /\
  exists api_key,
    tr = [provider_call api_key input;
          InsertOne (py "chat_messages") (prepare_for_mongo (ChatMessage_dict m));
          UpdateOneInc (py "chat_sessions")
            (ChatMessageCreate.session_id input) (py "total_messages") 1].
Proof.
  intros Hreply Hrun.
  pose proof (send_chat_message_cases env input) as Hc.
  rewrite Hreply in Hc; destruct Hc as (key & _ & Hc); cbv zeta in Hc.
  destruct (insert_one env _) as [[]|e];
    [|rewrite Hc in Hrun; now apply raised_after_not_Ok in Hrun].
  destruct (update_one env _) as [[]|e];
    [|rewrite Hc in Hrun; now apply raised_after_not_Ok in Hrun].
  rewrite Hc in Hrun; injection Hrun as <- <-.
  split; [reflexivity|now exists key].
Qed.

(** ** The sanitizer *)

(** C2: when the classifier rejects the simplified text the delivered text
    is the fixed fallback, when it accepts it the delivered text is the
    simplified text, the flag is the classifier's answer, and these are the
    [response] and [is_safe] of the record a request returns. *)
Theorem sanitize_outcome (u raw : str) :
  (classify u (make_kid_friendly raw) = false ->
   fst (sanitize lower u raw) = FALLBACK) /\
  (classify u (make_kid_friendly raw) = true ->
   fst (sanitize lower u raw) = make_kid_friendly raw) /\
  snd (sanitize lower u raw) = classify u (make_kid_friendly raw) /\
  (forall env input tr m,
      ChatMessageCreate.message input = u ->
      provider_reply env input = Some (Ok raw) ->
      handler env input = (tr, Ok m) ->
      ChatMessage.response m = fst (sanitize lower u raw) /\
      ChatMessage.is_safe m = snd (sanitize lower u raw)).
Proof.
  rewrite sanitize_eq; cbn [fst snd].
  split; [now intros ->|].
  split; [now intros ->|].
  split; [reflexivity|].
  intros env input tr m Hu Hreply Hrun.
  destruct (send_chat_message_ok env input raw tr m Hreply Hrun) as [-> _].
  cbn [record_of ChatMessage.response ChatMessage.is_safe].
  now rewrite Hu, sanitize_eq.
Qed.

(** C3: the reply is simplified first and the classifier is then run on the
    user's message and the simplified reply.  The raw reply is not what it
    reads: a keyword that simplification breaks up goes unnoticed, and one
    that simplification puts together is caught. *)
Theorem classifier_reads_simplified_reply :
  (forall u raw,
      sanitize lower u raw =
      let simplified := make_kid_friendly raw in
      let safe := classify u simplified in
      (if safe then simplified else FALLBACK, safe)) /\
  (make_kid_friendly (py "meanalyze") = py "melook at carefully" /\
   classify (py "hi") (py "meanalyze") = false /\
   snd (sanitize lower (py "hi") (py "meanalyze")) = true) /\
  (make_kid_friendly (py "implementill") = py "make it workill" /\
   classify (py "hi") (py "implementill") = true /\
   snd (sanitize lower (py "hi") (py "implementill")) = false).
Proof.
  split; [intros u raw; apply sanitize_eq|].
  split; (split; [vm_compute; reflexivity|split]);
    try rewrite sanitize_eq; cbn [snd]; classify_plain.
Qed.

(** C6: for the message "What is AI?" and the reply "AI is a kind of
    processing that helps computers" the delivered text contains
    "thinking", which the reply did not, and the flag is true. *)
Theorem scenario_processing_becomes_thinking :
  sanitize lower (py "What is AI?")
    (py "AI is a kind of processing that helps computers")
  = (py "AI is a kind of thinking that helps computers", true) /\
  contains (py "thinking")
    (fst (sanitize lower (py "What is AI?")
            (py "AI is a kind of processing that helps computers"))) = true /\
  contains (py "thinking")
    (py "AI is a kind of processing that helps computers") = false.
Proof.
  assert (E : classify (py "What is AI?")
                (make_kid_friendly
                   (py "AI is a kind of processing that helps computers"))
              = true) by classify_plain.
  rewrite sanitize_eq, E; cbn [fst].
  repeat split; vm_compute; reflexivity.
Qed.

(** C9: no keyword is a substring of the lower-cased text that is
    delivered: an accepted text is part of the text in which the classifier
    found no keyword, and the lower-cased fallback contains none. *)
Theorem delivered_text_has_no_keyword (u raw k : str) :
  In k unsafe_keywords ->
  ~ Substring k (lower (fst (sanitize lower u raw))).
Proof.
  intros Hk Hsub.
  rewrite sanitize_eq in Hsub; cbn [fst] in Hsub.
  destruct (classify u (make_kid_friendly raw)) eqn:E.
  - apply classify_true_iff in E; apply E.
    exists k; split; trivial.
    rewrite lower_space.
    now apply Substring_app_r, Substring_app_r.
  - rewrite lower_plain in Hsub by (vm_compute; reflexivity).
    assert (F : any_keyword_in (lower_plain_model FALLBACK) = false)
      by (vm_compute; reflexivity).
    assert (T : any_keyword_in (lower_plain_model FALLBACK) = true)
      by (apply any_keyword_in_true; now exists k).
    congruence.
Qed.

(** C10: a user message whose lower-cased form contains a keyword forces
    the fallback and the flag false, whatever the provider replied. *)
Theorem unsafe_message_forces_fallback (u raw : str) :
  (exists k, In k unsafe_keywords /\ Substring k (lower u)) ->
  sanitize lower u raw = (FALLBACK, false).
Proof.
  intros (k & Hk & Hsub).
  assert (E : classify u (make_kid_friendly raw) = false).
  { apply classify_false_iff.
    exists k; split; trivial.
    rewrite lower_space.
    now apply Substring_app_l. }
  now rewrite sanitize_eq, E.
Qed.

(** ** The endpoint *)

Lemma failed_after_500 (tr : list event) (e : exn) :
  is_http_500 (snd (failed_after HTTPException_str tr e)).
Proof. now eexists. Qed.

Lemma raised_after_calls (tr : list event) (e : exn) :
  provider_calls (fst (raised_after HTTPException_str tr e))
  = provider_calls tr.
Proof.
  unfold raised_after, failed_after, provider_calls.
  destruct (isinstance_Exception e); cbn [fst]; [|reflexivity].
  rewrite filter_app, length_app; cbn; lia.
Qed.

Lemma raised_after_answer (tr : list event) (e : exn) :
  if isinstance_Exception e
  then is_http_500 (snd (raised_after HTTPException_str tr e))
  else snd (raised_after HTTPException_str tr e) = Raise e.
Proof.
  unfold raised_after.
  destruct (isinstance_Exception e); [apply failed_after_500|reflexivity].
Qed.

(** C8, as the code has it: the handler answers with a 500 when the key is
    not configured (the provider is then not called at all), and when the
    provider call or one of the two database writes raises an exception of
    class [Exception]; an exception outside that class raised at one of
    these three awaits is not caught and leaves the handler as it was
    raised; the provider is called at most once; in every other case the
    answer is the record, whose document was inserted. *)
Theorem send_chat_message_answers (env : Env) (input : ChatMessageCreate.t) :
  provider_calls (fst (handler env input)) <= 1 /\
  match provider_reply env input with
  | None =>
      provider_calls (fst (handler env input)) = 0 /\
      is_http_500 (snd (handler env input))
  | Some (Raise e) =>
      if isinstance_Exception e
      then is_http_500 (snd (handler env input))
      else snd (handler env input) = Raise e
  | Some (Ok raw) =>
      let chat_message := record_of lower env input raw in
      let message_data := prepare_for_mongo (ChatMessage_dict chat_message) in
      match insert_one env message_data with
      | Raise e =>
          if isinstance_Exception e
          then is_http_500 (snd (handler env input))
          else snd (handler env input) = Raise e
      | Ok _ =>
          match update_one env (ChatMessageCreate.session_id input) with
          | Raise e =>
              if isinstance_Exception e
              then is_http_500 (snd (handler env input))
              else snd (handler env input) = Raise e
          | Ok _ =>
              snd (handler env input) = Ok chat_message /\
              In (InsertOne (py "chat_messages") message_data)
                 (fst (handler env input))
          end
      end
  end.
Proof.
  pose proof (send_chat_message_cases env input) as Hc.
  destruct (provider_reply env input) as [[raw|e]|].
  - destruct Hc as (key & _ & Hc); cbv zeta in *.
    destruct (insert_one env _) as [[]|e].
    + destruct (update_one env _) as [[]|e]; rewrite Hc.
      * split; [cbn; lia|split; [reflexivity|cbn; tauto]].
      * split; [rewrite raised_after_calls; cbn; lia
               |apply raised_after_answer].
    + rewrite Hc; split; [rewrite raised_after_calls; cbn; lia
                         |apply raised_after_answer].
  - destruct Hc as (key & _ & Hc); rewrite Hc.
    split; [rewrite raised_after_calls; cbn; lia|apply raised_after_answer].
  - rewrite Hc.
    split; [cbn; lia|split; [reflexivity|apply failed_after_500]].
Qed.

End Properties.

(** ** [lower_plain_model] has the two properties assumed of [str.lower] *)

Lemma lower_plain_model_space (u s : str) :
  lower_plain_model (u ++ py " " ++ s)
  = lower_plain_model u ++ py " " ++ lower_plain_model s.
Proof. unfold lower_plain_model; now rewrite !map_app. Qed.

Lemma lower_plain_model_plain (s : str) :
  forallb plain s = true -> lower_plain_model s = lower_plain_model s.
Proof. reflexivity. Qed.

(** ** Concrete runs *)

Lemma sanitize_outcome_witness :
  is_content_safe_for_kids lower_plain_model (py "Tell me about violence")
    (make_kid_friendly (py "Violence is never okay")) = false /\
  fst (sanitize lower_plain_model (py "Tell me about violence")
         (py "Violence is never okay")) = FALLBACK.
Proof.
  split.
  - vm_compute; reflexivity.
  - apply (proj1 (sanitize_outcome lower_plain_model starlette_str
                    (py "Tell me about violence")
                    (py "Violence is never okay"))).
    vm_compute; reflexivity.
Defined.

Lemma classifier_reads_simplified_reply_witness :
  is_content_safe_for_kids lower_plain_model (py "hi") (py "meanalyze")
    = false /\
  snd (sanitize lower_plain_model (py "hi") (py "meanalyze")) = true.
Proof.
  exact (proj2 (proj1 (proj2 (classifier_reads_simplified_reply
                                lower_plain_model
                                lower_plain_model_plain)))).
Defined.

Lemma scenario_processing_becomes_thinking_witness :
  sanitize lower_plain_model (py "What is AI?")
    (py "AI is a kind of processing that helps computers")
  = (py "AI is a kind of thinking that helps computers", true).
Proof.
  exact (proj1 (scenario_processing_becomes_thinking
                  lower_plain_model lower_plain_model_plain)).
Defined.

Lemma delivered_text_has_no_keyword_witness :
  In (py "war") unsafe_keywords /\
  ~ Substring (py "war")
      (lower_plain_model
         (fst (sanitize lower_plain_model (py "What is AI?") reply_ai))).
Proof.
  assert (Hin : In (py "war") unsafe_keywords)
    by (do 5 right; left; reflexivity).
  split; [exact Hin|].
  exact (delivered_text_has_no_keyword lower_plain_model
           lower_plain_model_space lower_plain_model_plain
           (py "What is AI?") reply_ai (py "war") Hin).
Defined.

Lemma unsafe_message_forces_fallback_witness :
  (exists k, In k unsafe_keywords /\
             Substring k (lower_plain_model (py "Tell me about violence"))) /\
  sanitize lower_plain_model (py "Tell me about violence")
    (py "Violence is never okay") = (FALLBACK, false).
Proof.
  assert (H : exists k, In k unsafe_keywords /\
                Substring k (lower_plain_model (py "Tell me about violence"))).
  { exists (py "violence"); split.
    - left; reflexivity.
    - apply contains_Substring; vm_compute; reflexivity. }
  split; [exact H|].
  exact (unsafe_message_forces_fallback lower_plain_model
           lower_plain_model_space (py "Tell me about violence") (py "Violence is never okay") H).
Defined.

(** C8, as stated, fails: the key is configured and the provider answers,
    yet the request ends in a 500 and not in the record, because the
    insertion raised. *)
Lemma insertion_failure_is_a_500 :
  provider_reply env_db_down request_ai = Some (Ok reply_ai) /\
  snd (send_chat_message lower_plain_model starlette_str
         env_db_down request_ai)
  = Raise (HTTPException 500
             (py "Failed to process chat message: connection refused")) /\
  (forall m,
      snd (send_chat_message lower_plain_model starlette_str
             env_db_down request_ai) <> Ok m) /\
  provider_calls
    (fst (send_chat_message lower_plain_model starlette_str
            env_db_down request_ai)) = 1.
Proof.
  split; [vm_compute; reflexivity|].
  split; [vm_compute; reflexivity|].
  split; [|vm_compute; reflexivity].
  intros m H; vm_compute in H; discriminate.
Qed.

(** A cancellation at the provider call is not caught: it leaves the handler
    as it was raised, with nothing logged and nothing written. *)
Example cancellation_passes_the_except_clause :
  send_chat_message lower_plain_model starlette_str env_cancelled request_ai
  = ([provider_call (py "sk-test") request_ai], Raise (BaseError (py ""))).
Proof. vm_compute; reflexivity. Qed.

(** A request with no key is answered without calling the provider; the
    detail carries the text of the inner exception. *)
Example no_key_is_a_500 :
  send_chat_message lower_plain_model starlette_str
    {| EMERGENT_LLM_KEY := None;
       uuid4 := uuid4 env_db_down;
       utcnow := utcnow env_db_down;
       llm_send_message := llm_send_message env_db_down;
       insert_one := insert_one env_db_down;
       update_one := update_one env_db_down |}
    request_ai
  = ([LogError (py "Chat error: 500: API key not configured")],
     Raise (HTTPException 500
              (py "Failed to process chat message: 500: API key not configured"))).
Proof. vm_compute; reflexivity. Qed.

(** * Further properties of the code *)

(** ** Text on both sides of a separator *)

Lemma startswith_separator (old a b : str) (c : N) :
  ~ In c old -> startswith old (a ++ c :: b) = startswith old a.
Proof.
  revert a; induction old as [|x old IH]; intros a Hc.
  - reflexivity.
  - destruct a as [|y a]; simpl.
    + destruct (N.eqb_spec x c) as [->|_]; [|reflexivity].
      exfalso; apply Hc; now left.
    + rewrite IH; [reflexivity|].
      intros Hin; apply Hc; now right.
Qed.

Lemma startswith_nil_r (old : str) : old <> [] -> startswith old [] = false.
Proof. destruct old; [congruence|reflexivity]. Qed.

Lemma replace_separator (old new a b : str) (c : N) :
  old <> [] -> ~ In c old ->
  replace old new (a ++ c :: b) = replace old new a ++ c :: replace old new b.
Proof.
  intros Hold Hc.
  remember (List.length a) as n eqn:Hn.
  revert a Hn; induction n as [n IH] using lt_wf_ind; intros a ->.
  destruct (startswith old a) eqn:E.
  - apply startswith_true in E as [rest ->].
    rewrite <- app_assoc, !replace_hit, <- app_assoc by assumption.
    f_equal.
    apply (IH (List.length rest)); trivial.
    rewrite length_app.
    destruct old; [congruence|cbn [List.length]; lia].
  - destruct a as [|y a].
    + cbn [app].
      rewrite replace_nil by assumption.
      rewrite replace_copy; [reflexivity|].
      change (c :: b) with ([] ++ c :: b).
      rewrite startswith_separator by assumption.
      now apply startswith_nil_r.
    + cbn [app].
      rewrite !replace_copy; trivial.
      * cbn [app]; f_equal.
        apply (IH (List.length a)); trivial.
        cbn [List.length]; lia.
      * change (y :: a ++ c :: b) with ((y :: a) ++ c :: b).
        now rewrite startswith_separator.
Qed.

Lemma for_items_separator (items : list (str * str)) (a b : str) (c : N)
    (ra rb : list (str * str)) :
  Forall (fun item => fst item <> [] /\ ~ In c (fst item)) items ->
  result (for_items items {| replacements := ra; result := a ++ c :: b |})
  = result (for_items items {| replacements := ra; result := a |})
    ++ c :: result (for_items items {| replacements := rb; result := b |}).
Proof.
  intros H; revert a b.
  induction H as [|[old new] items [Hold Hc] _ IH]; intros a b.
  - reflexivity.
  - cbn [for_items loop_body replacements result].
    cbn [fst] in Hold, Hc.
    rewrite replace_separator by assumption.
    apply IH.
Qed.

Lemma in_no_phrase_Forall (c : N) :
  in_no_phrase c = true ->
  Forall (fun item : str * str => fst item <> [] /\ ~ In c (fst item))
    replacements_literal.
Proof.
  unfold in_no_phrase; intros H.
  rewrite forallb_forall in H.
  apply Forall_forall; intros item Hin.
  split.
  - pose proof replacements_literal_nonempty as Hne.
    rewrite Forall_forall in Hne; now apply Hne.
  - intros Hc.
    specialize (H item Hin); apply negb_true_iff in H.
    assert (T : existsb (N.eqb c) (fst item) = true).
    { apply existsb_exists; exists c; split; trivial; apply N.eqb_refl. }
    congruence.
Qed.

(** X1: a code point that occurs in no phrase of the table (a full stop, a
    line break, a digit, a capital letter) splits the text: what stands
    before it and what stands behind it are simplified independently, and
    the code point itself is kept. *)
Theorem make_kid_friendly_splits_at_separator (a b : str) (c : N) :
  in_no_phrase c = true ->
  make_kid_friendly (a ++ c :: b)
  = make_kid_friendly a ++ c :: make_kid_friendly b.
Proof.
  intros H.
  unfold make_kid_friendly, make_kid_friendly_run; cbn [replacements].
  now apply for_items_separator, in_no_phrase_Forall.
Qed.

Lemma make_kid_friendly_splits_at_separator_witness :
  in_no_phrase 10 = true /\
  make_kid_friendly (py "An algorithm helps." ++ 10%N :: py "So does processing.")
  = make_kid_friendly (py "An algorithm helps.")
    ++ 10%N :: make_kid_friendly (py "So does processing.").
Proof.
  split.
  - vm_compute; reflexivity.
  - apply (make_kid_friendly_splits_at_separator
             (py "An algorithm helps.") (py "So does processing.") 10).
    vm_compute; reflexivity.
Defined.

(** X2: a text in which no phrase of the table occurs, the empty text
    among them, is returned as it is. *)
Theorem make_kid_friendly_keeps_phrase_free_text (t : str) :
  no_complex_term t = true -> make_kid_friendly t = t.
Proof.
  intros H.
  unfold make_kid_friendly, make_kid_friendly_run; cbn [replacements].
  rewrite for_items_absent; [reflexivity|].
  cbn [result]; now apply no_complex_term_In.
Qed.

Lemma make_kid_friendly_keeps_phrase_free_text_witness :
  no_complex_term (py "I like puzzle games") = true /\
  make_kid_friendly (py "I like puzzle games") = py "I like puzzle games".
Proof.
  split.
  - vm_compute; reflexivity.
  - apply (make_kid_friendly_keeps_phrase_free_text (py "I like puzzle games")).
    vm_compute; reflexivity.
Defined.

(** ** Keywords on both sides of the joining space *)

Lemma contains_separator (k a b : str) (c : N) :
  k <> [] -> ~ In c k ->
  contains k (a ++ c :: b) = contains k a || contains k b.
Proof.
  intros Hk Hc; induction a as [|y a IH].
  - cbn [app contains].
    change (c :: b) with ([] ++ c :: b) at 1.
    rewrite startswith_separator by assumption.
    now rewrite startswith_nil_r.
  - change ((y :: a) ++ c :: b) with (y :: (a ++ c :: b)).
    cbn [contains].
    change (y :: a ++ c :: b) with ((y :: a) ++ c :: b).
    rewrite startswith_separator by assumption.
    now rewrite IH, orb_assoc.
Qed.

Lemma existsb_contains_separator (ks : list str) (a b : str) (c : N) :
  Forall (fun k => k <> [] /\ ~ In c k) ks ->
  existsb (fun k => contains k (a ++ c :: b)) ks
  = existsb (fun k => contains k a) ks || existsb (fun k => contains k b) ks.
Proof.
  induction 1 as [|k ks [Hk Hc] _ IH]; cbn [existsb].
  - reflexivity.
  - rewrite contains_separator, IH by assumption.
    destruct (contains k a), (contains k b),
      (existsb (fun k => contains k a) ks),
      (existsb (fun k => contains k b) ks); reflexivity.
Qed.

Lemma unsafe_keywords_have_no_space :
  Forall (fun k : str => k <> [] /\ ~ In 32%N k) unsafe_keywords.
Proof.
  repeat constructor; try discriminate;
    intros H; cbn in H; repeat destruct H as [H|H]; try discriminate H;
    exact H.
Qed.

Lemma any_keyword_in_joined (a b : str) :
  any_keyword_in (a ++ py " " ++ b) = any_keyword_in a || any_keyword_in b.
Proof.
  unfold any_keyword_in.
  change (a ++ py " " ++ b) with (a ++ 32%N :: b).
  apply existsb_contains_separator, unsafe_keywords_have_no_space.
Qed.

Section MoreProperties.

Variable lower : str -> str.
Variable HTTPException_str : Z -> str -> str.

Hypothesis lower_space :
  forall u s, lower (u ++ py " " ++ s) = lower u ++ py " " ++ lower s.

Local Abbreviation classify := (is_content_safe_for_kids lower).
Local Abbreviation handler := (send_chat_message lower HTTPException_str).

(** X3: no keyword contains a space, so none is found across the space
    that joins message and reply: the pair is safe exactly when the
    lower-cased message and the lower-cased reply are each free of
    keywords, and swapping the two does not change the answer. *)
Theorem is_content_safe_for_kids_both_sides (u r : str) :
  classify u r
  = negb (any_keyword_in (lower u)) && negb (any_keyword_in (lower r)) /\
  classify u r = classify r u.
Proof.
  unfold is_content_safe_for_kids.
  rewrite !lower_space, !any_keyword_in_joined, !negb_orb.
  split; [reflexivity|apply andb_comm].
Qed.

(** ** What the handler does to the outside world *)

Lemma raised_after_events (tr : list event) (e : exn) (ev : event) :
  In ev (fst (raised_after HTTPException_str tr e)) ->
  In ev tr \/ is_log ev = true.
Proof.
  unfold raised_after, failed_after.
  destruct (isinstance_Exception e); cbn [fst]; [|now left].
  intros H; apply in_app_or in H as [H|[<-|[]]]; [now left|now right].
Qed.

Lemma raised_after_writes (tr : list event) (e : exn)
    (f : event -> bool) :
  (forall text, f (LogError text) = false) ->
  filter f (fst (raised_after HTTPException_str tr e)) = filter f tr.
Proof.
  intros Hf; unfold raised_after, failed_after.
  destruct (isinstance_Exception e); cbn [fst]; [|reflexivity].
  rewrite filter_app; cbn [filter]; now rewrite Hf, app_nil_r.
Qed.

Lemma existsb_filter {A} (f : A -> bool) (l : list A) :
  existsb f l = negb (Nat.eqb (List.length (filter f l)) 0).
Proof.
  induction l as [|x l IH]; cbn [existsb filter]; [reflexivity|].
  destruct (f x); [reflexivity|exact IH].
Qed.

(** X4: an error is logged exactly when the request is answered with the
    500 of the [except] clause, and then once, as the last effect; a
    request that returns a record logs nothing, and neither does one that
    ends with an exception outside class [Exception], which the clause
    does not catch. *)
Theorem error_logged_iff_answer_is_500 (env : Env)
    (input : ChatMessageCreate.t) :
  match snd (handler env input) with
  | Ok _ => existsb is_log (fst (handler env input)) = false
  | Raise e =>
      if isinstance_Exception e
      then exists tr text,
             e = HTTPException 500
                   (py "Failed to process chat message: " ++ text) /\
             fst (handler env input)
             = tr ++ [LogError (py "Chat error: " ++ text)] /\
             existsb is_log tr = false
      else existsb is_log (fst (handler env input)) = false
  end.
Proof.
  assert (R : forall tr e,
             existsb is_log tr = false ->
             match snd (raised_after HTTPException_str tr e) with
             | Ok _ =>
                 existsb is_log (fst (raised_after HTTPException_str tr e))
                 = false
             | Raise e' =>
                 if isinstance_Exception e'
                 then exists tr' text,
                        e' = HTTPException 500
                               (py "Failed to process chat message: " ++ text)
                        /\
                        fst (raised_after HTTPException_str tr e)
                        = tr' ++ [LogError (py "Chat error: " ++ text)] /\
                        existsb is_log tr' = false
                 else existsb is_log
                        (fst (raised_after HTTPException_str tr e)) = false
             end).
  { intros tr e Htr; unfold raised_after, failed_after.
    destruct e; cbn [isinstance_Exception snd fst]; trivial;
      eexists _, _; repeat split; trivial. }
  pose proof (send_chat_message_cases lower HTTPException_str env input)
    as Hc.
  destruct (provider_reply env input) as [[raw|e]|].
  - destruct Hc as (key & _ & Hc); cbv zeta in Hc.
    destruct (insert_one env _) as [[]|e].
    + destruct (update_one env _) as [[]|e]; rewrite Hc.
      * reflexivity.
      * now apply R.
    + rewrite Hc; now apply R.
  - destruct Hc as (key & _ & Hc); rewrite Hc; now apply R.
  - rewrite Hc; cbn [snd fst failed_after isinstance_Exception].
    eexists [], _; repeat split.
Qed.

(** X5: nothing is written to the database unless the provider answered,
    and the session counter is incremented only after the record was
    inserted. *)
Theorem database_writes_follow_success (env : Env)
    (input : ChatMessageCreate.t) :
  (existsb is_insert (fst (handler env input)) = true ->
   exists raw, provider_reply env input = Some (Ok raw)) /\
  (existsb is_update (fst (handler env input)) = true ->
   exists raw,
     provider_reply env input = Some (Ok raw) /\
     insert_one env
       (prepare_for_mongo (ChatMessage_dict (record_of lower env input raw)))
     = Ok tt).
Proof.
  pose proof (send_chat_message_cases lower HTTPException_str env input)
    as Hc.
  destruct (provider_reply env input) as [[raw|e]|].
  - destruct Hc as (key & _ & Hc); cbv zeta in Hc.
    split; [now exists raw|].
    destruct (insert_one env _) as [[]|e] eqn:Hi.
    + intros _; exists raw; now rewrite Hi.
    + rewrite Hc, existsb_filter, raised_after_writes by reflexivity.
      cbn; discriminate.
  - destruct Hc as (key & _ & Hc); rewrite Hc.
    rewrite !existsb_filter, !raised_after_writes by reflexivity.
    split; cbn; discriminate.
  - rewrite Hc; split; cbn; discriminate.
Qed.

(** X6: when the insertion succeeds and the counter update raises, the
    client gets no record although the record is in the database: the
    answer is the 500 for an exception of class [Exception] and the
    exception itself for any other; the counter was asked to move once. *)
Theorem counter_failure_leaves_record_inserted (env : Env)
    (input : ChatMessageCreate.t) (raw : str) (e : exn) :
  provider_reply env input = Some (Ok raw) ->
  insert_one env
    (prepare_for_mongo (ChatMessage_dict (record_of lower env input raw)))
  = Ok tt ->
  update_one env (ChatMessageCreate.session_id input) = Raise e ->
  snd (handler env input)
  = (if isinstance_Exception e
     then Raise (HTTPException 500
                   (py "Failed to process chat message: "
                    ++ exn_str HTTPException_str e))
     else Raise e) /\
  In (InsertOne (py "chat_messages")
        (prepare_for_mongo (ChatMessage_dict (record_of lower env input raw))))
     (fst (handler env input)) /\
  List.length (filter is_update (fst (handler env input))) = 1.
Proof.
  intros Hr Hi Hu.
  pose proof (send_chat_message_cases lower HTTPException_str env input)
    as Hc.
  rewrite Hr in Hc; destruct Hc as (key & _ & Hc); cbv zeta in Hc.
  rewrite Hi, Hu in Hc; rewrite Hc.
  split; [|split].
  - unfold raised_after; now destruct (isinstance_Exception e).
  - unfold raised_after, failed_after.
    destruct (isinstance_Exception e); cbn; tauto.
  - now rewrite raised_after_writes.
Qed.

(** X7: whatever a run inserts is the sanitized record: the document goes
    to [chat_messages], its [response] and [is_safe] are the sanitizer's
    text and flag (so a rejected reply is never stored), its [message] is
    the user's message as sent, and its [timestamp] is a text. *)
Theorem inserted_document_is_sanitized (env : Env)
    (input : ChatMessageCreate.t) (collection : str) (document : dict) :
  In (InsertOne collection document) (fst (handler env input)) ->
  collection = py "chat_messages" /\
  exists raw,
    provider_reply env input = Some (Ok raw) /\
    dict_get (py "response") document
    = Some (VStr (fst (sanitize lower (ChatMessageCreate.message input) raw)))
    /\
    dict_get (py "is_safe") document
    = Some (VBool (snd (sanitize lower (ChatMessageCreate.message input) raw)))
    /\
    dict_get (py "message") document
    = Some (VStr (ChatMessageCreate.message input)) /\
    dict_get (py "timestamp") document
    = Some (VStr (isoformat (utcnow env))).
Proof.
  intros Hin.
  pose proof (send_chat_message_cases lower HTTPException_str env input)
    as Hc.
  destruct (provider_reply env input) as [[raw|e]|].
  - destruct Hc as (key & _ & Hc); cbv zeta in Hc.
    assert (E : InsertOne collection document
                = InsertOne (py "chat_messages")
                    (prepare_for_mongo
                       (ChatMessage_dict (record_of lower env input raw)))).
    { destruct (insert_one env _) as [[]|e];
        [destruct (update_one env _) as [[]|e]|];
        rewrite Hc in Hin;
        try (apply raised_after_events in Hin as [Hin|Hin];
             [|discriminate Hin]);
        cbn [In app] in Hin;
        repeat (destruct Hin as [Hin|Hin]; try discriminate Hin);
        try contradiction; now symmetry. }
    injection E as -> ->.
    split; [reflexivity|].
    exists raw; repeat split; reflexivity.
  - destruct Hc as (key & _ & Hc); rewrite Hc in Hin.
    apply raised_after_events in Hin as [Hin|Hin]; [|discriminate Hin].
    cbn [In] in Hin.
    repeat (destruct Hin as [Hin|Hin]; try discriminate Hin); contradiction.
  - rewrite Hc in Hin; cbn in Hin.
    repeat (destruct Hin as [Hin|Hin]; try discriminate Hin); contradiction.
Qed.

(** X8: a request fails exactly with what was raised inside the [try]
    block: an exception of class [Exception] reaches the client as a 500
    whose detail is the fixed prefix followed by [str(e)] of that
    exception, be it the inner 500 of a missing key or what the provider
    call, the insertion or the counter update raised; an exception outside
    class [Exception] reaches the caller unchanged. *)
Theorem failure_detail_is_wrapped (env : Env) (input : ChatMessageCreate.t)
    (e : exn) :
  snd (handler env input) = Raise e ->
  exists caught,
    raised_in_try lower env input = Some caught /\
    e = if isinstance_Exception caught
        then HTTPException 500
               (py "Failed to process chat message: "
                ++ exn_str HTTPException_str caught)
        else caught.
Proof.
  intros He.
  assert (R : forall tr caught,
             snd (raised_after HTTPException_str tr caught) = Raise e ->
             e = if isinstance_Exception caught
                 then HTTPException 500
                        (py "Failed to process chat message: "
                         ++ exn_str HTTPException_str caught)
                 else caught).
  { intros tr caught; unfold raised_after, failed_after.
    destruct (isinstance_Exception caught); cbn [snd]; congruence. }
  pose proof (send_chat_message_cases lower HTTPException_str env input)
    as Hc.
  unfold raised_in_try.
  destruct (provider_reply env input) as [[raw|e']|].
  - destruct Hc as (key & _ & Hc); cbv zeta in Hc.
    destruct (insert_one env _) as [[]|e1].
    + destruct (update_one env _) as [[]|e2]; rewrite Hc in He.
      * discriminate.
      * exists e2; split; [reflexivity|now apply (R _ _ He)].
    + rewrite Hc in He.
      exists e1; split; [reflexivity|now apply (R _ _ He)].
  - destruct Hc as (key & _ & Hc); rewrite Hc in He.
    exists e'; split; [reflexivity|now apply (R _ _ He)].
  - rewrite Hc in He; cbn [snd failed_after] in He.
    eexists; split; [reflexivity|].
    cbn [isinstance_Exception]; congruence.
Qed.

End MoreProperties.

(** ** Documents on their way to the database and back *)

Lemma str_eqb_refl (a : str) : str_eqb a a = true.
Proof.
  induction a as [|x a IH]; simpl; [reflexivity|now rewrite N.eqb_refl].
Qed.

Lemma str_eqb_eq (a b : str) : str_eqb a b = true -> a = b.
Proof.
  revert b; induction a as [|x a IH]; intros [|y b] E; simpl in E;
    try discriminate; trivial.
  apply andb_true_iff in E as [Exy E].
  apply N.eqb_eq in Exy; subst y; f_equal; now apply IH.
Qed.

Lemma Forall_pointwise_iff {A} (P Q : A -> Prop) (l : list A) :
  (forall x, P x <-> Q x) -> Forall P l <-> Forall Q l.
Proof.
  intros H; split; intros F; eapply Forall_impl; try exact F;
    intros x; apply H.
Qed.

Lemma map_fixed {A} (f : A -> A) (l : list A) :
  map f l = l <-> Forall (fun x => f x = x) l.
Proof.
  induction l as [|x l IH]; simpl.
  - split; [constructor|reflexivity].
  - split.
    + intros H; injection H as Hx Hl.
      constructor; [exact Hx|now apply IH].
    + intros H; inversion H as [|? ? Hx Hl]; subst.
      rewrite Hx; f_equal; now apply IH.
Qed.

(** X9: [prepare_for_mongo] keeps the keys and their order, leaves no
    datetime behind, gives the ISO text for each datetime it found and the
    old value for everything else, and changes nothing when run again. *)
Theorem prepare_for_mongo_normalises (data : dict) :
  map fst (prepare_for_mongo data) = map fst data /\
  (forall key d, ~ In (key, VDatetime d) (prepare_for_mongo data)) /\
  (forall key,
      dict_get key (prepare_for_mongo data)
      = match dict_get key data with
        | Some (VDatetime d) => Some (VStr (isoformat d))
        | other => other
        end) /\
  prepare_for_mongo (prepare_for_mongo data) = prepare_for_mongo data.
Proof.
  unfold prepare_for_mongo.
  repeat split.
  - induction data as [|[k v] data IH]; simpl; [reflexivity|].
    rewrite IH; now destruct v.
  - intros key d Hin.
    apply in_map_iff in Hin as ([k v] & E & _).
    destruct v; discriminate.
  - intros key; induction data as [|[k v] data IH]; simpl; [reflexivity|].
    destruct v; simpl; destruct (str_eqb key k); trivial.
  - rewrite map_map.
    apply map_ext; intros [k v]; now destruct v.
Qed.

Section ReadingBack.

Variable lower : str -> str.
Variable HTTPException_str : Z -> str -> str.
Variable fromisoformat : str -> option datetime.

Local Abbreviation parse := (parse_from_mongo fromisoformat).

Lemma parse_item_key (kv : str * value) :
  fst (parse_item fromisoformat kv) = fst kv.
Proof.
  destruct kv as [k v]; unfold parse_item.
  destruct (is_time_key k); [|reflexivity].
  destruct v as [s| |]; simpl; trivial.
  now destruct (fromisoformat s).
Qed.

Lemma parse_item_twice (kv : str * value) :
  parse_item fromisoformat (parse_item fromisoformat kv)
  = parse_item fromisoformat kv.
Proof.
  destruct kv as [k v]; unfold parse_item.
  destruct (is_time_key k) eqn:Ek; simpl; [|now rewrite Ek].
  destruct v as [s| |]; simpl; rewrite ?Ek; trivial.
  destruct (fromisoformat s) eqn:Es; rewrite Ek; simpl; [reflexivity|].
  now rewrite Es.
Qed.

(** X10: [parse_from_mongo] keeps the keys and their order, changes
    nothing under a key other than [timestamp] and [created_at], leaves a
    text that does not parse where it is, and changes nothing when run
    again. *)
Theorem parse_from_mongo_touches_time_keys_only (item : dict) :
  map fst (parse item) = map fst item /\
  (forall key, is_time_key key = false ->
               dict_get key (parse item) = dict_get key item) /\
  (forall key s, In (key, VStr s) item -> fromisoformat s = None ->
                 In (key, VStr s) (parse item)) /\
  parse (parse item) = parse item.
Proof.
  unfold parse_from_mongo.
  repeat split.
  - rewrite map_map; apply map_ext; intros kv; apply parse_item_key.
  - intros key Hkey; induction item as [|[k v] item IH]; [reflexivity|].
    cbn [map].
    destruct (is_time_key k) eqn:Ek.
    + pose proof (parse_item_key (k, v)) as Hk; cbn [fst] in Hk.
      destruct (parse_item fromisoformat (k, v)) as [k' v'].
      cbn [fst] in Hk; subst k'.
      cbn [dict_get].
      destruct (str_eqb key k) eqn:E; [|exact IH].
      apply str_eqb_eq in E; congruence.
    + assert (E : parse_item fromisoformat (k, v) = (k, v))
        by (unfold parse_item; now rewrite Ek).
      rewrite E; cbn [dict_get].
      now rewrite IH.
  - intros key s Hin Hs.
    apply in_map_iff; exists (key, VStr s); split; trivial.
    unfold parse_item; cbn [isinstance_str]; rewrite Hs.
    now destruct (is_time_key key).
  - rewrite map_map; apply map_ext; intros kv; apply parse_item_twice.
Qed.

Lemma parse_prepare_fixed_iff (data : dict) :
  parse (prepare_for_mongo data) = data
  <-> Forall (reads_back fromisoformat) data.
Proof.
  unfold parse_from_mongo, prepare_for_mongo.
  rewrite map_map.
  etransitivity; [apply map_fixed|].
  apply Forall_pointwise_iff; intros [k v].
  unfold reads_back, parse_item; cbn [fst snd].
  destruct v as [s|b|d]; cbn [isinstance_str].
  - destruct (is_time_key k); cbn [andb].
    + destruct (fromisoformat s) as [d|]; split; intros H.
      * discriminate H.
      * specialize (H eq_refl); discriminate H.
      * reflexivity.
      * reflexivity.
    + split; intros H; [intros H'; discriminate H'|reflexivity].
  - rewrite andb_false_r; split; trivial.
  - destruct (is_time_key k); cbn [andb].
    + destruct (fromisoformat (isoformat d)) as [d'|]; split; intros H.
      * injection H as ->; now split.
      * destruct H as [_ H]; now injection H as ->.
      * discriminate H.
      * destruct H as [_ H]; discriminate H.
    + split; intros H; [discriminate H|destruct H as [H _]; discriminate H].
Qed.

(** X11: a document that was prepared for the database reads back as it
    was exactly when every datetime in it sits under [timestamp] or
    [created_at] and is the one its ISO text parses to, and no text under
    those two keys parses as a datetime. *)
Theorem parse_after_prepare_round_trip (data : dict) :
  parse (prepare_for_mongo data) = data
  <-> Forall (reads_back fromisoformat) data.
Proof. apply parse_prepare_fixed_iff. Qed.

(** X12: what [create_status_check] inserts goes to [status_checks] and
    reads back, through [parse_from_mongo], as the [dict()] of the object it
    returns, provided the clock's ISO text parses back to the clock's
    value; the object carries the client's name as sent. *)
Theorem create_status_check_reads_back (env : Env)
    (input : StatusCheckCreate.t) (tr : list event) (s : StatusCheck.t)
    (collection : str) (document : dict) :
  fromisoformat (isoformat (utcnow env)) = Some (utcnow env) ->
  create_status_check env input = (tr, Ok s) ->
  In (InsertOne collection document) tr ->
  collection = py "status_checks" /\
  parse document = StatusCheck_dict s /\
  StatusCheck.client_name s = StatusCheckCreate.client_name input.
Proof.
  intros Hclock Hrun Hin.
  unfold create_status_check, call, bind, ret in Hrun; cbv zeta in Hrun.
  destruct (insert_one env _) as [[]|e]; [|discriminate].
  injection Hrun as <- <-.
  cbn [In app] in Hin; destruct Hin as [Hin|[]].
  injection Hin as <- <-.
  split; [reflexivity|split; [|reflexivity]].
  apply (proj2 (parse_prepare_fixed_iff
                  (StatusCheck_dict
                     {| StatusCheck.id := uuid4 env;
                        StatusCheck.client_name :=
                          StatusCheckCreate.client_name input;
                        StatusCheck.timestamp := utcnow env |}))).
  repeat constructor; cbn; try discriminate; exact Hclock.
Qed.


(** X14: the document a successful [send_chat_message] inserted reads
    back, through [parse_from_mongo], as the [dict()] of the record it
    returned, provided the clock's ISO text parses back to the clock's
    value. *)
Theorem chat_message_reads_back (env : Env) (input : ChatMessageCreate.t)
    (tr : list event) (m : ChatMessage.t) (collection : str)
    (document : dict) :
  fromisoformat (isoformat (utcnow env)) = Some (utcnow env) ->
  send_chat_message lower HTTPException_str env input = (tr, Ok m) ->
  In (InsertOne collection document) tr ->
  parse document = ChatMessage_dict m.
Proof.
  intros Hclock Hrun Hin.
  pose proof (send_chat_message_cases lower HTTPException_str env input)
    as Hc.
  destruct (provider_reply env input) as [[raw|e]|] eqn:Hr.
  - destruct (send_chat_message_ok lower HTTPException_str env input raw tr m
                Hr Hrun) as [Hm (key & ->)].
    cbn [In] in Hin.
    repeat (destruct Hin as [Hin|Hin]; try discriminate Hin);
      try contradiction.
    injection Hin as _ <-.
    apply (proj2 (parse_prepare_fixed_iff (ChatMessage_dict m))).
    rewrite Hm.
    repeat constructor; cbn; try discriminate; exact Hclock.
  - destruct Hc as (key & _ & Hc); rewrite Hc in Hrun.
    now apply raised_after_not_Ok in Hrun.
  - rewrite Hc in Hrun; discriminate.
Qed.

End ReadingBack.

(** ** Concrete runs of the further properties *)

Lemma is_content_safe_for_kids_both_sides_witness :
  is_content_safe_for_kids lower_plain_model
    (py "Tell me about war") (py "Wars are bad")
  = negb (any_keyword_in (lower_plain_model (py "Tell me about war")))
    && negb (any_keyword_in (lower_plain_model (py "Wars are bad"))).
Proof.
  exact (proj1 (is_content_safe_for_kids_both_sides lower_plain_model
                  lower_plain_model_space
                  (py "Tell me about war") (py "Wars are bad"))).
Defined.

Lemma database_writes_follow_success_witness :
  existsb is_insert
    (fst (send_chat_message lower_plain_model starlette_str
            (env_up reply_ai) request_ai)) = true /\
  exists raw, provider_reply (env_up reply_ai) request_ai = Some (Ok raw).
Proof.
  assert (H : existsb is_insert
                (fst (send_chat_message lower_plain_model starlette_str
                        (env_up reply_ai) request_ai)) = true)
    by (vm_compute; reflexivity).
  split; [exact H|].
  exact (proj1 (database_writes_follow_success lower_plain_model
                  starlette_str (env_up reply_ai) request_ai) H).
Defined.

Lemma counter_failure_leaves_record_inserted_witness :
  update_one env_counter_down (ChatMessageCreate.session_id request_ai)
  = Raise (Error (py "connection refused")) /\
  snd (send_chat_message lower_plain_model starlette_str
         env_counter_down request_ai)
  = Raise (HTTPException 500
             (py "Failed to process chat message: "
              ++ exn_str starlette_str (Error (py "connection refused")))).
Proof.
  split; [reflexivity|].
  refine (proj1 (counter_failure_leaves_record_inserted lower_plain_model
                   starlette_str env_counter_down request_ai reply_ai
                   (Error (py "connection refused")) _ _ _));
    vm_compute; reflexivity.
Defined.

Lemma inserted_document_is_sanitized_witness :
  In (InsertOne (py "chat_messages")
        (prepare_for_mongo
           (ChatMessage_dict
              (record_of lower_plain_model (env_up reply_ai) request_ai
                 reply_ai))))
     (fst (send_chat_message lower_plain_model starlette_str
             (env_up reply_ai) request_ai)) /\
  py "chat_messages" = py "chat_messages".
Proof.
  assert (H : In (InsertOne (py "chat_messages")
                    (prepare_for_mongo
                       (ChatMessage_dict
                          (record_of lower_plain_model (env_up reply_ai)
                             request_ai reply_ai))))
                 (fst (send_chat_message lower_plain_model starlette_str
                         (env_up reply_ai) request_ai)))
    by (right; left; vm_compute; reflexivity).
  split; [exact H|].
  exact (proj1 (inserted_document_is_sanitized lower_plain_model
                  starlette_str (env_up reply_ai) request_ai _ _ H)).
Defined.

Lemma failure_detail_is_wrapped_witness :
  exists caught,
    raised_in_try lower_plain_model env_no_key request_ai = Some caught /\
    HTTPException 500
      (py "Failed to process chat message: 500: API key not configured")
    = if isinstance_Exception caught
      then HTTPException 500
             (py "Failed to process chat message: "
              ++ exn_str starlette_str caught)
      else caught.
Proof.
  apply (failure_detail_is_wrapped lower_plain_model starlette_str
           env_no_key request_ai).
  vm_compute; reflexivity.
Defined.

Lemma parse_from_mongo_touches_time_keys_only_witness :
  is_time_key (py "message") = false /\
  dict_get (py "message")
    (parse_from_mongo fromisoformat_digits
       [(py "message", VStr (py "2025-01-01"));
        (py "timestamp", VStr (py "2025-01-01T00:00:00+00:00"))])
  = Some (VStr (py "2025-01-01")).
Proof.
  split; [reflexivity|].
  apply (proj1 (proj2 (parse_from_mongo_touches_time_keys_only
                         fromisoformat_digits
                         [(py "message", VStr (py "2025-01-01"));
                          (py "timestamp",
                           VStr (py "2025-01-01T00:00:00+00:00"))]))
           (py "message")).
  reflexivity.
Defined.

Lemma parse_after_prepare_round_trip_witness :
  Forall (reads_back fromisoformat_digits)
    (StatusCheck_dict
       {| StatusCheck.id := uuid4 env_no_key;
          StatusCheck.client_name := py "classroom-7";
          StatusCheck.timestamp := utcnow env_no_key |}) /\
  parse_from_mongo fromisoformat_digits
    (prepare_for_mongo
       (StatusCheck_dict
          {| StatusCheck.id := uuid4 env_no_key;
             StatusCheck.client_name := py "classroom-7";
             StatusCheck.timestamp := utcnow env_no_key |}))
  = StatusCheck_dict
      {| StatusCheck.id := uuid4 env_no_key;
         StatusCheck.client_name := py "classroom-7";
         StatusCheck.timestamp := utcnow env_no_key |}.
Proof.
  assert (H : Forall (reads_back fromisoformat_digits)
                (StatusCheck_dict
                   {| StatusCheck.id := uuid4 env_no_key;
                      StatusCheck.client_name := py "classroom-7";
                      StatusCheck.timestamp := utcnow env_no_key |})).
  { repeat constructor; try (intros E; vm_compute in E; discriminate E);
      vm_compute; reflexivity. }
  split; [exact H|].
  exact (proj2 (parse_after_prepare_round_trip fromisoformat_digits _) H).
Defined.

Lemma create_status_check_reads_back_witness :
  fromisoformat_digits (isoformat (utcnow (env_up reply_ai)))
  = Some (utcnow (env_up reply_ai)) /\
  StatusCheck.client_name
    {| StatusCheck.id := uuid4 (env_up reply_ai);
       StatusCheck.client_name := py "classroom-7";
       StatusCheck.timestamp := utcnow (env_up reply_ai) |}
  = StatusCheckCreate.client_name request_status.
Proof.
  split; [vm_compute; reflexivity|].
  refine (proj2 (proj2 (create_status_check_reads_back fromisoformat_digits
                          (env_up reply_ai) request_status _ _
                          (py "status_checks")
                          (prepare_for_mongo
                             (StatusCheck_dict
                                {| StatusCheck.id := uuid4 (env_up reply_ai);
                                   StatusCheck.client_name := py "classroom-7";
                                   StatusCheck.timestamp :=
                                     utcnow (env_up reply_ai) |}))
                          _ _ _))).
  - vm_compute; reflexivity.
  - reflexivity.
  - left; reflexivity.
Defined.


Lemma chat_message_reads_back_witness :
  fromisoformat_digits (isoformat (utcnow (env_up reply_ai)))
  = Some (utcnow (env_up reply_ai)) /\
  parse_from_mongo fromisoformat_digits
    (prepare_for_mongo
       (ChatMessage_dict
          (record_of lower_plain_model (env_up reply_ai) request_ai
             reply_ai)))
  = ChatMessage_dict
      (record_of lower_plain_model (env_up reply_ai) request_ai reply_ai).
Proof.
  split; [vm_compute; reflexivity|].
  refine (chat_message_reads_back lower_plain_model starlette_str
            fromisoformat_digits (env_up reply_ai) request_ai _ _
            (py "chat_messages") _ _ _ _).
  - vm_compute; reflexivity.
  - vm_compute; reflexivity.
  - right; left; reflexivity.
Defined.
